(** * The calculator reducer of next-calculator

    The [Calculator] component, found in src/next.config.ts after the
    build configuration.

    A shallow embedding of the calculator's state machine: the pure helpers
    [calculate], [formatResult], [parseDisplay], [pushHistory] and the
    [reducer] over [State] and [Action], together with the part of the
    JavaScript runtime they call (IEEE-754 binary64 numbers, their
    conversion from and to decimal strings, string and array slicing).

    Numbers are [spec_float] at precision 53 and maximal exponent 1024, the
    specification of binary64 that ships with the prover; strings are
    sequences of code units below 256 (the multiplication and division
    signs of [Operator] are the code units 215 and 247). *)

From Stdlib Require Import ZArith List Bool Lia.
From Stdlib Require Import Ascii String.
From Stdlib Require Import Decimal DecimalString.
From Stdlib Require Import Floats.SpecFloat.
Import ListNotations.

Open Scope string_scope.
Open Scope Z_scope.

(** ** JavaScript strings *)

Module JSString.

(** Relative index of [slice]: negative counts from the end, the result is
    clamped to [0 .. len]. *)
Definition clamp_index (len i : Z) : Z :=
  if i <? 0 then Z.max (len + i) 0 else Z.min i len.

(** [s.slice(start, end)]; [None] for an omitted [end]. *)
Definition slice (s : string) (start : Z) (end_ : option Z) : string :=
  let len := Z.of_nat (String.length s) in
  let from := clamp_index len start in
  let to := match end_ with Some e => clamp_index len e | None => len end in
  substring (Z.to_nat from) (Z.to_nat (Z.max (to - from) 0)) s.

(** [s.startsWith(p)] *)
Definition startsWith (s p : string) : bool := prefix p s.

(** [s.includes(c)] for a one-code-unit needle. *)
Fixpoint includes (s : string) (c : ascii) : bool :=
  match s with
  | EmptyString => false
  | String a r => Ascii.eqb a c || includes r c
  end.

(** Number of occurrences of a code unit. *)
Fixpoint count (c : ascii) (s : string) : nat :=
  match s with
  | EmptyString => O
  | String a r => ((if Ascii.eqb a c then 1 else 0) + count c r)%nat
  end.

Fixpoint zeros (n : nat) : string :=
  match n with
  | O => ""
  | S k => String "0" (zeros k)
  end.

(** Decimal representation of a natural number, no leading zeros. *)
Definition digits (n : Z) : string :=
  NilZero.string_of_uint (N.to_uint (Z.to_N n)).

Definition is_digit (c : ascii) : bool :=
  let n := N_of_ascii c in (48 <=? n)%N && (n <=? 57)%N.

Definition digit_value (c : ascii) : Z := Z.of_N (N_of_ascii c) - 48.

(** StrWhiteSpaceChar, restricted to code units below 256. *)
Definition is_white_space (c : ascii) : bool :=
  let n := N_of_ascii c in
  ((9 <=? n)%N && (n <=? 13)%N) || (n =? 32)%N || (n =? 160)%N.

Fixpoint trimStart (s : string) : string :=
  match s with
  | String c r => if is_white_space c then trimStart r else s
  | EmptyString => s
  end.

(** Longest run of decimal digits at the head of [s]: the value read so
    far, the number of digits read, and the rest. *)
Fixpoint read_digits (acc cnt : Z) (s : string) : Z * Z * string :=
  match s with
  | String c r =>
      if is_digit c then read_digits (10 * acc + digit_value c) (cnt + 1) r
      else (acc, cnt, s)
  | EmptyString => (acc, cnt, s)
  end.

Definition read_sign (s : string) : bool * string :=
  match s with
  | String "+" r => (false, r)
  | String "-" r => (true, r)
  | _ => (false, s)
  end.

End JSString.

(** ** JavaScript numbers *)

Module JSNumber.

Definition prec : Z := 53.
Definition emax : Z := 1024.

Definition number : Type := spec_float.

Definition zero : number := S754_zero false.
Definition Infinity : number := S754_infinity false.
Definition NaN : number := S754_nan.

Definition add : number -> number -> number := SFadd prec emax.
Definition sub : number -> number -> number := SFsub prec emax.
Definition mul : number -> number -> number := SFmul prec emax.
Definition div : number -> number -> number := SFdiv prec emax.

(** [a === b], [a < b], [a >= b], [a > b] on numbers. *)
Definition strict_eq (a b : number) : bool := SFeqb a b.
Definition lt (a b : number) : bool := SFltb a b.
Definition gt (a b : number) : bool := SFltb b a.
Definition ge (a b : number) : bool := SFleb b a.

Definition Math_abs (x : number) : number := SFabs x.

Definition Number_isFinite (x : number) : bool :=
  match x with
  | S754_zero _ | S754_finite _ _ _ => true
  | S754_infinity _ | S754_nan => false
  end.

(** ToBoolean on a number: [NaN], [+0] and [-0] are falsy. *)
Definition truthy (x : number) : bool :=
  match x with
  | S754_zero _ | S754_nan => false
  | _ => true
  end.

(** The number nearest to [m * 10^e] ([m >= 0]), ties to even, with the
    given sign: the value of a decimal literal. *)
Definition of_decimal (neg : bool) (m e : Z) : number :=
  match m with
  | Zpos _ =>
      if 0 <=? e
      then binary_normalize prec emax (cond_Zopp neg (m * 10 ^ e)) 0 neg
      else
        let '(q, e', l) := SFdiv_core_binary prec emax m 0 (10 ^ (- e)) 0 in
        binary_round_aux prec emax neg q e' l
  | _ => S754_zero neg
  end.

Definition of_Z (z : Z) : number := of_decimal (z <? 0) (Z.abs z) 0.

(** The exact value of a finite number's magnitude as a fraction. *)
Definition fraction (m : positive) (e : Z) : Z * Z :=
  if 0 <=? e then (Zpos m * 2 ^ e, 1) else (Zpos m, 2 ^ (- e)).

(** [ilog10 fuel num den] is the greatest [E] with [10^E <= num/den]. *)
Fixpoint ilog10 (fuel : nat) (num den : Z) : Z :=
  match fuel with
  | O => 0
  | S f =>
      if num <? den then ilog10 f (10 * num) den - 1
      else if 10 * den <=? num then ilog10 f num (10 * den) + 1
      else 0
  end.

Definition floor_log10 (num den : Z) : Z :=
  ilog10 (S (Z.to_nat (Z.log2 num + Z.log2 den))) num den.

(** [num/den * 10^k] as a fraction. *)
Definition scale10 (num den k : Z) : Z * Z :=
  if 0 <=? k then (num * 10 ^ k, den) else (num, den * 10 ^ (- k)).

(** Nearest integer to [num/den], the larger one on a tie. *)
Definition round_half_up (num den : Z) : Z := (2 * num + den) / (2 * den).

(** ToIntegerOrInfinity: the number truncated toward zero, 0 for NaN. *)
Inductive IntegerOrInfinity : Type :=
| NegInfinity
| Integer (z : Z)
| PosInfinity.

Definition ToIntegerOrInfinity (x : number) : IntegerOrInfinity :=
  match x with
  | S754_nan | S754_zero _ => Integer 0
  | S754_infinity neg => if neg then NegInfinity else PosInfinity
  | S754_finite neg m e =>
      let '(num, den) := fraction m e in
      Integer (cond_Zopp neg (num / den))
  end.

(** *** Number::toString, radix 10 *)

(** One step of the search for the shortest digit string: with [k] digits,
    the two neighbours of [x] on the grid of [k]-digit decimals, kept when
    they read back as [x]; the nearer one wins, the even one on a tie. *)
Definition shortest_at (x : number) (num den E k : Z) : option (Z * Z) :=
  let '(yn, yd) := scale10 num den (k - 1 - E) in
  let lo := yn / yd in
  let r := yn mod yd in
  let hi := if lo + 1 =? 10 ^ k then (10 ^ (k - 1), E + 2) else (lo + 1, E + 1) in
  let ok (c : Z * Z) := SFeqb (of_decimal false (fst c) (snd c - k)) x in
  let lo_ok := ok (lo, E + 1) in
  let hi_ok := ok hi in
  let prefer_lo :=
    match 2 * r ?= yd with
    | Lt => true
    | Gt => false
    | Eq => Z.even lo
    end in
  if lo_ok && (prefer_lo || negb hi_ok) then Some (lo, E + 1)
  else if hi_ok then Some hi
  else None.

Fixpoint shortest_from (fuel : nat) (x : number) (num den E k : Z) : Z * Z * Z :=
  match fuel with
  | O => (round_half_up (fst (scale10 num den (k - 1 - E)))
                        (snd (scale10 num den (k - 1 - E))), E + 1, k)
  | S f =>
      match shortest_at x num den E k with
      | Some (s, n) => (s, n, k)
      | None => shortest_from f x num den E (k + 1)
      end
  end.

(** The integers [s], [n], [k] of Number::toString for a positive finite
    number [m * 2^e]. *)
Definition shortest (m : positive) (e : Z) : Z * Z * Z :=
  let '(num, den) := fraction m e in
  shortest_from 17 (S754_finite false m e) num den (floor_log10 num den) 1.

Definition exponent_suffix (e : Z) : string :=
  "e" ++ (if e <? 0 then "-" else "+") ++ JSString.digits (Z.abs e).

Definition layout (s n k : Z) : string :=
  let ds := JSString.digits s in
  if (-5 <=? n) && (n <=? 21) then
    if k <=? n then ds ++ JSString.zeros (Z.to_nat (n - k))
    else if 0 <? n then
      substring 0 (Z.to_nat n) ds ++ "." ++ substring (Z.to_nat n) (Z.to_nat (k - n)) ds
    else "0." ++ JSString.zeros (Z.to_nat (- n)) ++ ds
  else
    if k =? 1 then ds ++ exponent_suffix (n - 1)
    else substring 0 1 ds ++ "." ++ substring 1 (Z.to_nat (k - 1)) ds
         ++ exponent_suffix (n - 1).

Definition Number_toString (x : number) : string :=
  match x with
  | S754_nan => "NaN"
  | S754_zero _ => "0"
  | S754_infinity neg => (if neg then "-" else "") ++ "Infinity"
  | S754_finite neg m e =>
      let '(s, n, k) := shortest m e in
      (if neg then "-" else "") ++ layout s n k
  end.

(** *** Number.prototype.toFixed *)

Definition toFixed (x : number) (f : Z) : string :=
  match x with
  | S754_finite neg m e =>
      let '(num, den) := fraction m e in
      (if neg then "-" else "") ++
      (if 10 ^ 21 * den <=? num then Number_toString (S754_finite false m e)
       else
         let n := round_half_up (num * 10 ^ f) den in
         let ds := JSString.digits n in
         if f =? 0 then ds
         else
           let k := Z.of_nat (String.length ds) in
           let ds' := if k <=? f then JSString.zeros (Z.to_nat (f + 1 - k)) ++ ds else ds in
           let k' := if k <=? f then f + 1 else k in
           substring 0 (Z.to_nat (k' - f)) ds' ++ "." ++
           substring (Z.to_nat (k' - f)) (Z.to_nat f) ds')
  | S754_zero _ =>
      if f =? 0 then "0" else "0." ++ JSString.zeros (Z.to_nat f)
  | _ => Number_toString x
  end.

(** *** Number.prototype.toExponential *)

(** The digits [ds] with a decimal point after the first, when there are
    fraction digits. *)
Definition mantissa (f : Z) (ds : string) : string :=
  if f =? 0 then ds
  else substring 0 1 ds ++ "." ++ substring 1 (Z.to_nat f) ds.

Definition toExponential (x : number) (f : Z) : string :=
  let mantissa := mantissa f in
  match x with
  | S754_finite neg m e =>
      let '(num, den) := fraction m e in
      let E := floor_log10 num den in
      let '(yn, yd) := scale10 num den (f - E) in
      let n0 := round_half_up yn yd in
      let '(n, E') := if n0 =? 10 ^ (f + 1) then (10 ^ f, E + 1) else (n0, E) in
      (if neg then "-" else "") ++ mantissa (JSString.digits n) ++ exponent_suffix E'
  | S754_zero _ =>
      mantissa (JSString.zeros (Z.to_nat (f + 1))) ++ "e+0"
  | _ => Number_toString x
  end.

(** *** parseFloat *)

Definition is_exponent_indicator (c : ascii) : bool :=
  Ascii.eqb c "e" || Ascii.eqb c "E".

(** The exponent part at the head of [s], 0 when there is none. *)
Definition read_exponent (s : string) : Z :=
  match s with
  | String c r =>
      if is_exponent_indicator c then
        let '(eneg, r') := JSString.read_sign r in
        let '(ev, ec, _) := JSString.read_digits 0 0 r' in
        if ec =? 0 then 0 else if eneg then - ev else ev
      else 0
  | EmptyString => 0
  end.

Definition parseFloat (input : string) : number :=
  let '(neg, u) := JSString.read_sign (JSString.trimStart input) in
  if prefix "Infinity" u then S754_infinity neg
  else
    let '(ip, ic, r1) := JSString.read_digits 0 0 u in
    let '(mant, fc, r2) :=
      match r1 with
      | String "." r => JSString.read_digits ip 0 r
      | _ => (ip, 0, r1)
      end in
    if (ic =? 0) && (fc =? 0) then NaN
    else of_decimal neg mant (read_exponent r2 - fc).

End JSNumber.

(** ** The calculator *)

Import JSNumber.

(** [type Operator], the four operator signs. *)
Inductive Operator : Type := Add | Subtract | Multiply | Divide.

(** The string an operator is, as [`${state.operator}`] renders it. *)
Definition Operator_string (op : Operator) : string :=
  match op with
  | Add => "+"
  | Subtract => "-"
  | Multiply => String (ascii_of_nat 215) ""
  | Divide => String (ascii_of_nat 247) ""
  end.

Record HistoryItem : Type := {
  id : string;
  expression : string;
  result : string;
  ts : number
}.

Record State : Type := {
  display : string;
  firstOperand : option number;
  operator : option Operator;
  waitingForSecond : bool;
  memory : option number;
  history : list HistoryItem
}.

Module Action.
Inductive t : Type :=
| digit (payload : string)
| dot
| clear
| delete
| toggleSign
| percent
| operator (payload : Operator)
| equals
| memoryClear
| memoryRecall
| memoryAdd
| memorySubtract
| historyClear
| setDisplay (payload : string).
End Action.

(** What one call of [pushHistory] reads from the outside world: the two
    readings of [Date.now()] and the text of [Math.random().toString(36)]. *)
Record Env : Type := {
  Date_now_id : number;
  Math_random_toString36 : string;
  Date_now_ts : number
}.

Definition initialState : State := {|
  display := "0";
  firstOperand := None;
  operator := None;
  waitingForSecond := false;
  memory := None;
  history := []
|}.

Definition calculate (a b : number) (op : Operator) : number :=
  match op with
  | Add => add a b
  | Subtract => sub a b
  | Multiply => mul a b
  | Divide => if strict_eq b zero then Infinity else div a b
  end.

Definition formatResult (num : number) : string :=
  if negb (Number_isFinite num) then "Error"
  else
    let trimmed := parseFloat (toFixed num 12) in
    if ge (Math_abs trimmed) (of_decimal false 1 12)
       || (gt (Math_abs trimmed) zero && lt (Math_abs trimmed) (of_decimal false 1 (-6)))
    then toExponential trimmed 6
    else Number_toString trimmed.

Definition parseDisplay (display : string) : number :=
  let n := parseFloat display in
  if Number_isFinite n then n else zero.

(** [arr.slice(0, limit)]: the end index goes through
    ToIntegerOrInfinity, counts from the end when negative and is clamped
    to the length. *)
Definition Array_slice0 {A : Type} (l : list A) (limit : number) : list A :=
  let len := Z.of_nat (List.length l) in
  let final :=
    match ToIntegerOrInfinity limit with
    | NegInfinity => 0
    | Integer relativeEnd => JSString.clamp_index len relativeEnd
    | PosInfinity => len
    end in
  firstn (Z.to_nat final) l.

Definition default_limit : number := of_Z 25.

(** The [item] that [pushHistory] builds. *)
Definition new_item (env : Env) (expression result : string) : HistoryItem := {|
  id := Number_toString (Date_now_id env) ++ "-"
        ++ JSString.slice (Math_random_toString36 env) 2 None;
  expression := expression;
  result := result;
  ts := Date_now_ts env
|}.

Definition pushHistory (env : Env) (history : list HistoryItem)
    (expression result : string) (limit : number) : list HistoryItem :=
  let item := new_item env expression result in
  let next := (item :: history)%list in
  Array_slice0 next limit.

(** Record updates [{ ...state, field: value }]. *)
Definition with_display (s : State) (d : string) : State :=
  {| display := d; firstOperand := firstOperand s; operator := operator s;
     waitingForSecond := waitingForSecond s; memory := memory s;
     history := history s |}.

Definition with_waitingForSecond (s : State) (w : bool) : State :=
  {| display := display s; firstOperand := firstOperand s; operator := operator s;
     waitingForSecond := w; memory := memory s; history := history s |}.

Definition with_firstOperand (s : State) (f : option number) : State :=
  {| display := display s; firstOperand := f; operator := operator s;
     waitingForSecond := waitingForSecond s; memory := memory s;
     history := history s |}.

Definition with_operator (s : State) (o : option Operator) : State :=
  {| display := display s; firstOperand := firstOperand s; operator := o;
     waitingForSecond := waitingForSecond s; memory := memory s;
     history := history s |}.

Definition with_memory (s : State) (m : option number) : State :=
  {| display := display s; firstOperand := firstOperand s; operator := operator s;
     waitingForSecond := waitingForSecond s; memory := m; history := history s |}.

Definition with_history (s : State) (h : list HistoryItem) : State :=
  {| display := display s; firstOperand := firstOperand s; operator := operator s;
     waitingForSecond := waitingForSecond s; memory := memory s; history := h |}.

(** The text pushed to the history for [a op b]. *)
Definition expression_of (a : number) (op : Operator) (b : number) : string :=
  formatResult a ++ " " ++ Operator_string op ++ " " ++ formatResult b ++ " =".

(** [parseFloat(display) || 0] *)
Definition parseFloat_or_zero (display : string) : number :=
  let p := parseFloat display in if truthy p then p else zero.

(** [state.memory ?? 0] *)
Definition memory_or_zero (s : State) : number :=
  match memory s with Some m => m | None => zero end.

Definition is_some {A : Type} (o : option A) : bool :=
  match o with Some _ => true | None => false end.

Definition reducer (env : Env) (state : State) (action : Action.t) : State :=
  match action with
  | Action.digit d =>
      if waitingForSecond state then
        with_waitingForSecond
          (with_display state (if String.eqb d "0" then "0" else d)) false
      else if String.eqb (display state) "0" then with_display state d
      else if String.eqb (display state) "-0" then with_display state ("-" ++ d)
      else with_display state (display state ++ d)

  | Action.dot =>
      if waitingForSecond state then
        with_waitingForSecond (with_display state "0.") false
      else if JSString.includes (display state) "." then state
      else with_display state (display state ++ ".")

  | Action.clear =>
      with_memory (with_history initialState (history state)) (memory state)

  | Action.delete =>
      if waitingForSecond state then state
      else
        let next := JSString.slice (display state) 0 (Some (-1)) in
        let next :=
          if String.eqb next "" || String.eqb next "-" || String.eqb next "-0"
          then "0" else next in
        with_display state next

  | Action.toggleSign =>
      if String.eqb (display state) "0" then state
      else if JSString.startsWith (display state) "-" then
        with_display state (JSString.slice (display state) 1 None)
      else with_display state ("-" ++ display state)

  | Action.percent =>
      let current := parseFloat_or_zero (display state) in
      match firstOperand state with
      | Some first =>
          if is_some (operator state) && negb (waitingForSecond state) then
            let relative := div (mul first current) (of_Z 100) in
            with_display state (formatResult relative)
          else
            let result := div current (of_Z 100) in
            with_display state (formatResult result)
      | None =>
          let result := div current (of_Z 100) in
          with_display state (formatResult result)
      end

  | Action.operator nextOperator =>
      let inputValue := parseDisplay (display state) in
      if is_some (operator state) && waitingForSecond state then
        with_operator state (Some nextOperator)
      else
        match firstOperand state with
        | None =>
            with_waitingForSecond
              (with_operator (with_firstOperand state (Some inputValue))
                             (Some nextOperator)) true
        | Some first =>
            match operator state with
            | Some op =>
                let result := calculate first inputValue op in
                let formatted := formatResult result in
                let expr := expression_of first op inputValue in
                {| display := formatted;
                   firstOperand := Some result;
                   operator := Some nextOperator;
                   waitingForSecond := true;
                   memory := memory state;
                   history := pushHistory env (history state) expr formatted
                                          default_limit |}
            | None => state
            end
        end

  | Action.equals =>
      match operator state, waitingForSecond state, firstOperand state with
      | Some op, false, Some first =>
          let inputValue := parseDisplay (display state) in
          let result := calculate first inputValue op in
          let formatted := formatResult result in
          let expr := expression_of first op inputValue in
          {| display := formatted;
             firstOperand := None;
             operator := None;
             waitingForSecond := false;
             memory := memory state;
             history := pushHistory env (history state) expr formatted
                                    default_limit |}
      | _, _, _ => state
      end

  | Action.memoryClear => with_memory state None

  | Action.memoryRecall =>
      match memory state with
      | None => state
      | Some m =>
          with_waitingForSecond (with_display state (formatResult m)) false
      end

  | Action.memoryAdd =>
      let current := parseDisplay (display state) in
      let next := add (memory_or_zero state) current in
      with_memory state (Some next)

  | Action.memorySubtract =>
      let current := parseDisplay (display state) in
      let next := sub (memory_or_zero state) current in
      with_memory state (Some next)

  | Action.historyClear => with_history state []

  | Action.setDisplay v =>
      with_waitingForSecond
        (with_operator (with_firstOperand (with_display state v) None) None)
        false
  end.

(** Dispatching a sequence of actions, each with the environment its
    reducer call runs in. *)
Definition dispatch_all (s : State) (l : list (Env * Action.t)) : State :=
  fold_left (fun st ea => reducer (fst ea) st (snd ea)) l s.

(** The states [useReducer(reducer, initialState)] can ever hold. *)
Inductive reachable_by (allowed : Action.t -> Prop) : State -> Prop :=
| reachable_init : reachable_by allowed initialState
| reachable_step : forall env s a,
    reachable_by allowed s -> allowed a ->
    reachable_by allowed (reducer env s a).

Definition any_action (a : Action.t) : Prop := True.

Definition reachable : State -> Prop := reachable_by any_action.

(** The strings that are, as a whole, a signed decimal literal: digits with
    an optional fraction and an optional exponent. *)
Definition is_numeric_literal (s : string) : bool :=
  let '(_, u) := JSString.read_sign s in
  let '(_, ic, r1) := JSString.read_digits 0 0 u in
  let '(_, fc, r2) :=
    match r1 with
    | String "." r => JSString.read_digits 0 0 r
    | _ => (0, 0, r1)
    end in
  negb ((ic =? 0) && (fc =? 0)) &&
  match r2 with
  | EmptyString => true
  | String c r3 =>
      is_exponent_indicator c &&
      (let '(_, r4) := JSString.read_sign r3 in
       let '(_, ec, r5) := JSString.read_digits 0 0 r4 in
       negb (ec =? 0) && String.eqb r5 "")
  end.

(** Number of decimal points in a string. *)
Definition dots (s : string) : nat := JSString.count "." s.

(** The actions the adapter's buttons and keys dispatch carry a payload
    without a decimal point for [digit] and a history result for
    [setDisplay]; [dot_safe] keeps what matters of that for the decimal
    point count. *)
Definition dot_safe (a : Action.t) : Prop :=
  match a with
  | Action.digit d => dots d = 0%nat
  | Action.setDisplay v => (dots v <= 1)%nat
  | _ => True
  end.

(** ** Sample inputs *)

Definition sample_env : Env := {|
  Date_now_id := of_Z 1700000000000;
  Math_random_toString36 := "0.k3j5x9a";
  Date_now_ts := of_Z 1700000000001
|}.

(** A history of [n] entries, numbered from the oldest. *)
Fixpoint sample_history (n : nat) : list HistoryItem :=
  match n with
  | O => []
  | S k => (new_item sample_env (JSString.digits (Z.of_nat n)) "0" :: sample_history k)%list
  end.

(** 3000000 + 7, the second operand entered. *)
Definition three_million_plus_seven : list (Env * Action.t) :=
  [(sample_env, Action.digit "3"); (sample_env, Action.digit "0");
   (sample_env, Action.digit "0"); (sample_env, Action.digit "0");
   (sample_env, Action.digit "0"); (sample_env, Action.digit "0");
   (sample_env, Action.digit "0"); (sample_env, Action.operator Add);
   (sample_env, Action.digit "7")].

(** 6 / 0, the second operand entered. *)
Definition six_divided_by_zero : list (Env * Action.t) :=
  [(sample_env, Action.digit "6"); (sample_env, Action.operator Divide);
   (sample_env, Action.digit "0")].

(** Which actions leave the pending operation alone. *)
Definition keeps_pending (a : Action.t) : bool :=
  match a with
  | Action.clear | Action.operator _ | Action.equals | Action.setDisplay _ => false
  | _ => true
  end.

(** ** The keyboard adapter *)

(** [/\d/.test(k)]: some code unit of [k] is a decimal digit. *)
Fixpoint test_digit (k : string) : bool :=
  match k with
  | EmptyString => false
  | String c r => JSString.is_digit c || test_digit r
  end.

(** What [onKeyDown] does with the key [k = e.key]: the action it
    dispatches, if any, and whether it calls [e.preventDefault()]. *)
Definition onKeyDown (k : string) : option Action.t * bool :=
  if test_digit k then (Some (Action.digit k), false)
  else if String.eqb k "." then (Some Action.dot, false)
  else if String.eqb k "+" || String.eqb k "-" then
    (Some (Action.operator (if String.eqb k "+" then Add else Subtract)), false)
  else if String.eqb k "*" then (Some (Action.operator Multiply), false)
  else if String.eqb k "/" then (Some (Action.operator Divide), false)
  else if String.eqb k "Enter" || String.eqb k "=" then (Some Action.equals, true)
  else if String.eqb k "Backspace" then (Some Action.delete, false)
  else if String.eqb k "Escape" then (Some Action.clear, false)
  else if String.eqb k "%" then (Some Action.percent, false)
  else (None, false).

(** The state after the key [k] went through [onKeyDown]. *)
Definition keydown (env : Env) (s : State) (k : string) : State :=
  match fst (onKeyDown k) with
  | Some a => reducer env s a
  | None => s
  end.

(** [const hasMemory = state.memory !== null] *)
Definition hasMemory (s : State) : bool := is_some (memory s).

(** ** Vocabulary of the properties *)

(** The digit buttons pressed one after the other. *)
Definition press_digits (l : list (Env * ascii)) : list (Env * Action.t) :=
  map (fun ec => (fst ec, Action.digit (String (snd ec) ""))) l.

Fixpoint strip_zeros (s : string) : string :=
  match s with
  | String "0" r => strip_zeros r
  | _ => s
  end.

(** The digits typed, without their leading zeros; "0" when nothing else
    is left. *)
Definition entered (s : string) : string :=
  match strip_zeros s with
  | EmptyString => "0"
  | t => t
  end.

(** All code units but the last. *)
Fixpoint drop_last (s : string) : string :=
  match s with
  | EmptyString => ""
  | String c EmptyString => ""
  | String c r => String c (drop_last r)
  end.

Definition first_is_digit (s : string) : bool :=
  match s with
  | String c _ => JSString.is_digit c
  | EmptyString => false
  end.

(** A digit first, after at most one minus sign. *)
Definition numeric_head (s : string) : bool :=
  match s with
  | String "-" r => first_is_digit r
  | _ => first_is_digit s
  end.

(** Not empty, not a lone minus sign, not two minus signs in front. *)
Definition head_ok (s : string) : bool :=
  match s with
  | EmptyString => false
  | String "-" EmptyString => false
  | String "-" (String "-" _) => false
  | _ => true
  end.

Definition one_digit (d : string) : bool :=
  match d with
  | String c EmptyString => JSString.is_digit c
  | _ => false
  end.

(** The actions of the on-screen buttons: a [digit] carries one decimal
    digit, a [setDisplay] the result of a history entry, of which [head_ok]
    is what matters here. *)
Definition keypad_action (a : Action.t) : Prop :=
  match a with
  | Action.digit d => one_digit d = true
  | Action.setDisplay v => head_ok v = true
  | _ => True
  end.

(** The actions that write the memory register. *)
Definition writes_memory (a : Action.t) : bool :=
  match a with
  | Action.memoryClear | Action.memoryAdd | Action.memorySubtract => true
  | _ => false
  end.

(** A key of one code unit, or one whose name holds no decimal digit. *)
Definition plain_key (k : string) : Prop :=
  String.length k = 1%nat \/ test_digit k = false.

(** The state after a sequence of keys, each with the environment of its
    reducer call. *)
Definition type_keys (s : State) (l : list (Env * string)) : State :=
  fold_left (fun st ek => keydown (fst ek) st (snd ek)) l s.

(** ** Properties *)

(** *** The runtime model on known values *)

Example parseFloat_one_tenth :
  parseFloat "0.1" = S754_finite false 7205759403792794 (-56).
Proof. reflexivity. Qed.

Example parseFloat_prefix_and_failure :
  parseFloat "  12abc" = of_Z 12 /\ parseFloat "3." = of_Z 3 /\
  parseFloat "-0" = S754_zero true /\ parseFloat "." = NaN /\
  parseFloat "Error" = NaN /\ parseFloat "-Infinity" = S754_infinity true.
Proof. repeat split. Qed.

Example toString_shortest :
  Number_toString (add (parseFloat "0.1") (parseFloat "0.2")) = "0.30000000000000004" /\
  Number_toString (parseFloat "1e21") = "1e+21" /\
  Number_toString (parseFloat "0.0000001") = "1e-7" /\
  Number_toString (parseFloat "-1234.5678") = "-1234.5678".
Proof. vm_compute. repeat split. Qed.

Example toFixed_rounds :
  toFixed (div (of_Z 2) (of_Z 3)) 12 = "0.666666666667" /\
  toFixed (parseFloat "1.005") 2 = "1.00" /\
  toFixed (parseFloat "2.5") 0 = "3".
Proof. vm_compute. repeat split. Qed.

Example toExponential_rounds :
  toExponential (parseFloat "123456789012345") 6 = "1.234568e+14" /\
  toExponential (parseFloat "9999999.5") 6 = "1.000000e+7" /\
  toExponential (parseFloat "0.00000012345678") 6 = "1.234568e-7".
Proof. vm_compute. repeat split. Qed.

Example formatResult_samples :
  formatResult (div (of_Z 2) (of_Z 3)) = "0.666666666667" /\
  formatResult (of_decimal false 1 12) = "1.000000e+12" /\
  formatResult (of_decimal true 1 (-20)) = "0" /\
  formatResult NaN = "Error".
Proof. vm_compute. repeat split. Qed.

(** *** Shared facts *)

Section Frames.
Variable env : Env.
Variable s : State.

Lemma keeps_pending_frame (a : Action.t) :
  keeps_pending a = true ->
  firstOperand (reducer env s a) = firstOperand s /\
  operator (reducer env s a) = operator s.
Proof.
  destruct a; simpl; try discriminate; intros _;
    repeat match goal with
           | |- context [if ?c then _ else _] => destruct c eqn:?
           | |- context [match ?o with Some _ => _ | None => _ end] =>
               destruct o eqn:?
           end; simpl; auto.
Qed.

(** Every action leaves the history alone, empties it, or pushes once. *)
Lemma history_step (a : Action.t) :
  history (reducer env s a) = history s \/
  history (reducer env s a) = []%list \/
  exists e r, history (reducer env s a) = pushHistory env (history s) e r default_limit.
Proof.
  destruct a; simpl;
    repeat match goal with
           | |- context [if ?c then _ else _] => destruct c
           | |- context [match ?o with Some _ => _ | None => _ end] => destruct o
           end; simpl; eauto.
Qed.
End Frames.

Lemma pushHistory_firstn (env : Env) (h : list HistoryItem) (e r : string) :
  pushHistory env h e r default_limit = firstn 25 (new_item env e r :: h).
Proof.
  unfold pushHistory, Array_slice0.
  change (ToIntegerOrInfinity default_limit) with (Integer 25).
  unfold JSString.clamp_index. change (25 <? 0) with false. cbv iota.
  set (n := List.length (new_item env e r :: h)).
  destruct (Z.min_spec 25 (Z.of_nat n)) as [[H ->] | [H ->]].
  - reflexivity.
  - rewrite Nat2Z.id. rewrite !firstn_all2; auto; subst n; lia.
Qed.

Lemma pushHistory_length (env : Env) (h : list HistoryItem) (e r : string) :
  (List.length (pushHistory env h e r default_limit) <= 25)%nat.
Proof.
  rewrite pushHistory_firstn. apply firstn_le_length.
Qed.

Lemma firstn_removelast {A : Type} (l : list A) :
  firstn (List.length l - 1) l = removelast l.
Proof.
  induction l as [| a [| b l] IH]; try reflexivity.
  replace (List.length (a :: b :: l) - 1)%nat
    with (S (List.length (b :: l) - 1)) by (simpl; lia).
  rewrite firstn_cons, IH. reflexivity.
Qed.

Lemma Forall_firstn_keep {A : Type} (P : A -> Prop) (l : list A) :
  forall n, Forall P l -> Forall P (firstn n l).
Proof.
  induction l as [| a l IH]; intros [| n] H; simpl; try constructor.
  - inversion H; assumption.
  - apply IH. inversion H; assumption.
Qed.

Lemma dispatch_all_reachable (allowed : Action.t -> Prop) (l : list (Env * Action.t)) :
  forall s,
    reachable_by allowed s ->
    Forall (fun ea => allowed (snd ea)) l ->
    reachable_by allowed (dispatch_all s l).
Proof.
  induction l as [| [env a] l IH]; intros s Hs Hl; simpl.
  - exact Hs.
  - inversion Hl; subst. apply IH; [| assumption].
    apply reachable_step; assumption.
Qed.

Lemma any_action_all (l : list (Env * Action.t)) :
  Forall (fun ea => any_action (snd ea)) l.
Proof.
  induction l; constructor; [exact I | assumption].
Qed.

(** *** Clear *)

(** C7: [clear] resets the display to "0", drops the first operand and the
    pending operator and lowers the waiting flag, keeps the history and the
    memory of the state it is dispatched in, and is idempotent. *)
Theorem clear_resets_and_keeps_history_memory :
  forall (env env' : Env) (s : State),
    let s' := reducer env s Action.clear in
    display s' = "0" /\
    firstOperand s' = None /\
    operator s' = None /\
    waitingForSecond s' = false /\
    history s' = history s /\
    memory s' = memory s /\
    reducer env' s' Action.clear = s'.
Proof.
  intros env env' s. simpl. repeat split.
Qed.

(** *** The history bound *)

(** C6: a push puts the new entry in front and keeps the 25 most recent
    entries; every reachable state has at most 25 history entries; and a
    push onto 25 entries drops exactly the last (oldest) one. *)
Theorem history_push_prepends_and_caps :
  (forall env h e r,
      pushHistory env h e r default_limit = firstn 25 (new_item env e r :: h)) /\
  (forall s, reachable s -> (List.length (history s) <= 25)%nat) /\
  (forall env h e r,
      List.length h = 25%nat ->
      pushHistory env h e r default_limit = (new_item env e r :: removelast h)%list).
Proof.
  split; [| split].
  - exact pushHistory_firstn.
  - intros s H. induction H as [| env s a H IH _].
    + simpl. lia.
    + destruct (history_step env s a) as [-> | [-> | (e & r & ->)]].
      * exact IH.
      * simpl. lia.
      * apply pushHistory_length.
  - intros env h e r Hlen. rewrite pushHistory_firstn.
    change 25%nat with (S 24). rewrite firstn_cons. f_equal.
    replace 24%nat with (List.length h - 1)%nat by lia.
    apply firstn_removelast.
Qed.

Lemma history_push_prepends_and_caps_witness :
  (List.length (history initialState) <= 25)%nat /\
  pushHistory sample_env (sample_history 25) "1 + 1 =" "2" default_limit
  = (new_item sample_env "1 + 1 =" "2" :: removelast (sample_history 25))%list.
Proof.
  destruct history_push_prepends_and_caps as (_ & Hreach & Hfull).
  split.
  - apply Hreach. apply reachable_init.
  - apply Hfull. reflexivity.
Defined.

(** *** The pending operation *)

(** C9: in every reachable state a first operand comes with a pending
    operator, so [operator] never takes its fall-through [return state]:
    it replaces the pending operator, captures the first operand, or
    computes. *)
Theorem firstOperand_set_implies_operator_set :
  forall s, reachable s ->
    (firstOperand s <> None -> operator s <> None) /\
    forall env nextOperator,
      let s' := reducer env s (Action.operator nextOperator) in
      (operator s <> None /\ waitingForSecond s = true /\
       s' = with_operator s (Some nextOperator))
      \/
      (firstOperand s = None /\
       s' = with_waitingForSecond
              (with_operator
                 (with_firstOperand s (Some (parseDisplay (display s))))
                 (Some nextOperator)) true)
      \/
      (exists first op,
          firstOperand s = Some first /\ operator s = Some op /\
          waitingForSecond s = false /\
          let result := calculate first (parseDisplay (display s)) op in
          s' = {| display := formatResult result;
                  firstOperand := Some result;
                  operator := Some nextOperator;
                  waitingForSecond := true;
                  memory := memory s;
                  history := pushHistory env (history s)
                               (expression_of first op (parseDisplay (display s)))
                               (formatResult result) default_limit |}).
Proof.
  intros s H.
  assert (Inv : firstOperand s <> None -> operator s <> None).
  { induction H as [| env s a H IH _]; [simpl; congruence |].
    destruct (keeps_pending a) eqn:K.
    - destruct (keeps_pending_frame env s a K) as [-> ->]. exact IH.
    - destruct a; try discriminate K; simpl;
        repeat match goal with
               | |- context [if ?c then _ else _] => destruct c eqn:?
               | |- context [match ?o with Some _ => _ | None => _ end] =>
                   destruct o eqn:?
               end; simpl; intros; try congruence;
        exfalso; apply IH; congruence. }
  split; [exact Inv |].
  intros env nextOperator. simpl.
  destruct (operator s) as [op |] eqn:Hop; simpl.
  - destruct (waitingForSecond s) eqn:Hw.
    + left. repeat split. congruence.
    + destruct (firstOperand s) as [first |] eqn:Hf.
      * right; right. exists first, op. repeat split.
      * right; left. split; reflexivity.
  - destruct (firstOperand s) as [first |] eqn:Hf.
    + exfalso. apply Inv; congruence.
    + right; left. split; reflexivity.
Qed.

Lemma firstOperand_set_implies_operator_set_witness :
  let s := dispatch_all initialState
             [(sample_env, Action.digit "5"); (sample_env, Action.operator Add);
              (sample_env, Action.digit "3")] in
  firstOperand s = Some (of_Z 5) /\
  operator s <> None /\
  firstOperand (reducer sample_env s (Action.operator Subtract)) = Some (of_Z 8) /\
  display (reducer sample_env s (Action.operator Subtract)) = "8".
Proof.
  cbv zeta.
  destruct (firstOperand_set_implies_operator_set
              (dispatch_all initialState
                 [(sample_env, Action.digit "5"); (sample_env, Action.operator Add);
                  (sample_env, Action.digit "3")])
              (dispatch_all_reachable any_action _ initialState
                 (reachable_init any_action) (any_action_all _)))
    as [Inv Step].
  split; [reflexivity |].
  split; [apply Inv; vm_compute; discriminate |].
  destruct (Step sample_env Subtract)
    as [(_ & Hw & _) | [(Hf & _) | (first & op & Hf & Ho & _ & H)]].
  - vm_compute in Hw. discriminate Hw.
  - vm_compute in Hf. discriminate Hf.
  - vm_compute in Hf, Ho. injection Hf as <-. injection Ho as <-.
    rewrite H. split; reflexivity.
Defined.

(** *** Division by zero *)

Lemma strict_eq_zero (b : number) :
  strict_eq b zero = true <-> exists sgn, b = S754_zero sgn.
Proof.
  split.
  - destruct b as [sb | sb | | sb m e]; try (destruct sb); try discriminate;
      intros _; eexists; reflexivity.
  - intros [sgn ->]. reflexivity.
Qed.

(** C4: [calculate a b Divide] is positive infinity when [b] is a zero
    (of either sign, as [b === 0] holds for both) and the quotient [a / b]
    for every other [b]; being a total function it raises nothing; and the
    infinity formats to "Error", as it does for [calculate 6 0 Divide]. *)
Theorem divide_by_zero_is_infinity_then_Error :
  forall a b : number,
    (forall sgn, b = S754_zero sgn ->
       calculate a b Divide = Infinity /\
       formatResult (calculate a b Divide) = "Error") /\
    ((forall sgn, b <> S754_zero sgn) -> calculate a b Divide = div a b) /\
    formatResult (calculate (of_Z 6) (of_Z 0) Divide) = "Error".
Proof.
  intros a b. split; [| split].
  - intros sgn ->. split; reflexivity.
  - intros Hb. unfold calculate.
    destruct (strict_eq b zero) eqn:E; [| reflexivity].
    apply strict_eq_zero in E. destruct E as [sgn ->].
    exfalso. apply (Hb sgn). reflexivity.
  - reflexivity.
Qed.

Lemma divide_by_zero_is_infinity_then_Error_witness :
  (calculate (of_Z 6) (S754_zero true) Divide = Infinity /\
   formatResult (calculate (of_Z 6) (S754_zero true) Divide) = "Error") /\
  calculate (of_Z 6) (of_Z 3) Divide = of_Z 2.
Proof.
  split.
  - apply (divide_by_zero_is_infinity_then_Error (of_Z 6) (S754_zero true)) with (sgn := true).
    reflexivity.
  - destruct (divide_by_zero_is_infinity_then_Error (of_Z 6) (of_Z 3)) as (_ & H & _).
    rewrite H.
    + reflexivity.
    + intros sgn. vm_compute. discriminate.
Defined.

(** *** Operator chaining *)

(** C3, as stated, fails: after 5 + 3 and a decimal point the display is
    "3.", and [operator] records the expression "5 + 3 =", made of the
    formatted value of the display, not "5 + 3. =", made of the display. *)
Lemma operator_expression_is_not_the_display :
  let s := dispatch_all initialState
             [(sample_env, Action.digit "5"); (sample_env, Action.operator Add);
              (sample_env, Action.digit "3"); (sample_env, Action.dot)] in
  firstOperand s = Some (of_Z 5) /\
  operator s = Some Add /\
  waitingForSecond s = false /\
  display s = "3." /\
  map expression (history (reducer sample_env s (Action.operator Subtract)))
  = ["5 + 3 ="] /\
  map expression (history (reducer sample_env s (Action.operator Subtract)))
  <> ["5 + " ++ display s ++ " ="].
Proof.
  vm_compute. repeat split. discriminate.
Qed.

(** C3, amended: with a first operand, a pending operator and a second
    operand entered, [operator newOp] computes [calculate] on the first
    operand, the parsed display and the pending operator; it pushes in
    front of the history (kept to 25) the entry whose expression is the
    formatted first operand, the sign of the pending operator, the
    formatted value of the parsed display and "=", whose result is the
    formatted result, and whose id and time stamp come from the clock and
    the random source; it leaves the result as first operand with [newOp]
    pending and the waiting flag up.  While the second operand is awaited
    it only replaces the pending operator.  5 + 3 - 2 = leaves the entries
    "8 - 2 =" with "6" and "5 + 3 =" with "8", and shows "6". *)
Theorem operator_computes_pending_or_replaces :
  (forall env s first op newOp,
      firstOperand s = Some first ->
      operator s = Some op ->
      waitingForSecond s = false ->
      let inputValue := parseDisplay (display s) in
      let computed := calculate first inputValue op in
      let sign :=
        match op with
        | Add => "+"
        | Subtract => "-"
        | Multiply => String (ascii_of_nat 215) ""
        | Divide => String (ascii_of_nat 247) ""
        end in
      reducer env s (Action.operator newOp)
      = {| display := formatResult computed;
           firstOperand := Some computed;
           operator := Some newOp;
           waitingForSecond := true;
           memory := memory s;
           history :=
             firstn 25
               ({| id := Number_toString (Date_now_id env) ++ "-"
                         ++ JSString.slice (Math_random_toString36 env) 2 None;
                   expression := formatResult first ++ " " ++ sign ++ " "
                                 ++ formatResult inputValue ++ " =";
                   result := formatResult computed;
                   ts := Date_now_ts env |} :: history s) |}) /\
  (forall env s op newOp,
      operator s = Some op ->
      waitingForSecond s = true ->
      reducer env s (Action.operator newOp) = with_operator s (Some newOp)) /\
  (forall e1 e2 e3 e4 e5 e6,
      let s := dispatch_all initialState
                 [(e1, Action.digit "5"); (e2, Action.operator Add);
                  (e3, Action.digit "3"); (e4, Action.operator Subtract);
                  (e5, Action.digit "2"); (e6, Action.equals)] in
      display s = "6" /\
      map (fun h => (expression h, result h)) (history s)
      = [("8 - 2 =", "6"); ("5 + 3 =", "8")] /\
      map ts (history s) = [Date_now_ts e6; Date_now_ts e4]).
Proof.
  split; [| split].
  - intros env s first op newOp Hf Ho Hw. simpl.
    rewrite Hf, Ho, Hw. simpl. rewrite pushHistory_firstn.
    unfold new_item, expression_of. destruct op; reflexivity.
  - intros env s op newOp Ho Hw. simpl. rewrite Ho, Hw. reflexivity.
  - intros. subst s. lazy -[new_item]. repeat split.
Qed.

Lemma operator_computes_pending_or_replaces_witness :
  let s := dispatch_all initialState
             [(sample_env, Action.digit "6"); (sample_env, Action.operator Multiply);
              (sample_env, Action.digit "7")] in
  display (reducer sample_env s (Action.operator Divide)) = "42" /\
  firstOperand (reducer sample_env s (Action.operator Divide)) = Some (of_Z 42) /\
  map (fun h => (id h, expression h, result h))
      (history (reducer sample_env s (Action.operator Divide)))
  = [("1700000000000-k3j5x9a",
      "6 " ++ String (ascii_of_nat 215) "" ++ " 7 =", "42")] /\
  operator (reducer sample_env
              (reducer sample_env s (Action.operator Divide))
              (Action.operator Subtract)) = Some Subtract.
Proof.
  destruct operator_computes_pending_or_replaces as (Hcompute & Hreplace & _).
  cbv zeta. split; [| split; [| split]].
  - rewrite (Hcompute sample_env _ (of_Z 6) Multiply Divide); reflexivity.
  - rewrite (Hcompute sample_env _ (of_Z 6) Multiply Divide); reflexivity.
  - rewrite (Hcompute sample_env _ (of_Z 6) Multiply Divide); reflexivity.
  - rewrite (Hreplace sample_env _ Divide Subtract); reflexivity.
Defined.

(** *** Memory *)

(** C8: [memoryAdd] stores the memory (0 when empty) plus the parsed
    display and touches nothing else; [memoryRecall] on a filled memory
    shows the formatted memory; adding 4 and then 1 and recalling shows
    "5". *)
Theorem memoryAdd_accumulates_memoryRecall_shows :
  (forall env s,
      reducer env s Action.memoryAdd
      = with_memory s
          (Some (add (match memory s with Some m => m | None => zero end)
                     (parseDisplay (display s))))) /\
  (forall env s m,
      memory s = Some m ->
      display (reducer env s Action.memoryRecall) = formatResult m) /\
  (forall e1 e2 e3 e4 e5 e6 e7,
      display (dispatch_all initialState
                 [(e1, Action.clear); (e2, Action.digit "4");
                  (e3, Action.memoryAdd); (e4, Action.clear);
                  (e5, Action.digit "1"); (e6, Action.memoryAdd);
                  (e7, Action.memoryRecall)]) = "5").
Proof.
  split; [| split].
  - reflexivity.
  - intros env s m Hm. simpl. rewrite Hm. reflexivity.
  - intros. reflexivity.
Qed.

Lemma memoryAdd_accumulates_memoryRecall_shows_witness :
  display (reducer sample_env
             (reducer sample_env (with_display initialState "4") Action.memoryAdd)
             Action.memoryRecall) = formatResult (of_Z 4).
Proof.
  destruct memoryAdd_accumulates_memoryRecall_shows as (_ & Hrecall & _).
  apply Hrecall. reflexivity.
Defined.

(** *** Percent *)



(** C5, as stated, fails: after 3000000 + 7 the display of [percent] is
    "210000", the formatted (3000000 * 7) / 100, and not the formatted
    3000000 * (7 / 100), which is "210000.00000000003". *)
Lemma percent_is_not_base_times_hundredth :
  let s := dispatch_all initialState three_million_plus_seven in
  firstOperand s = Some (of_Z 3000000) /\
  operator s = Some Add /\
  waitingForSecond s = false /\
  parseFloat_or_zero (display s) = of_Z 7 /\
  display (reducer sample_env s Action.percent) = "210000" /\
  formatResult (mul (of_Z 3000000) (div (of_Z 7) (of_Z 100))) = "210000.00000000003" /\
  display (reducer sample_env s Action.percent)
  <> formatResult (mul (of_Z 3000000) (div (of_Z 7) (of_Z 100))).
Proof.
  vm_compute. repeat split. discriminate.
Qed.

(** C5, amended: [percent] shows the formatted value of
    (firstOperand * display) / 100, the product taken first, when a first
    operand and an operator are set and the second operand is not awaited,
    and the formatted value of display / 100 in every other state; the
    display is read by [parseFloat], 0 standing for an unreadable or zero
    one. *)
Theorem percent_shows_product_over_hundred :
  forall env s,
    (forall first op,
        firstOperand s = Some first ->
        operator s = Some op ->
        waitingForSecond s = false ->
        display (reducer env s Action.percent)
        = formatResult
            (div (mul first (parseFloat_or_zero (display s))) (of_Z 100))) /\
    ((firstOperand s = None \/ operator s = None \/ waitingForSecond s = true) ->
     display (reducer env s Action.percent)
     = formatResult (div (parseFloat_or_zero (display s)) (of_Z 100))).
Proof.
  intros env s. simpl. split.
  - intros first op Hf Ho Hw. rewrite Hf, Ho, Hw. reflexivity.
  - intros H. destruct (firstOperand s) as [first |]; [| reflexivity].
    destruct (operator s) as [op |]; simpl; [| reflexivity].
    destruct (waitingForSecond s); [reflexivity |].
    destruct H as [H | [H | H]]; discriminate H.
Qed.

Lemma percent_shows_product_over_hundred_witness :
  display (reducer sample_env
             (dispatch_all initialState three_million_plus_seven) Action.percent)
  = formatResult (div (mul (of_Z 3000000) (of_Z 7)) (of_Z 100)) /\
  display (reducer sample_env (with_display initialState "50") Action.percent)
  = formatResult (div (of_Z 50) (of_Z 100)).
Proof.
  split.
  - apply (proj1 (percent_shows_product_over_hundred sample_env
                    (dispatch_all initialState three_million_plus_seven))
             (of_Z 3000000) Add); reflexivity.
  - apply (proj2 (percent_shows_product_over_hundred sample_env
                    (with_display initialState "50"))).
    left. reflexivity.
Defined.

(** *** Digits after an error *)

(** C1, as stated, fails: 6 / 0 = leaves the display "Error" with the
    waiting flag down, and the digit 5 is then appended to the error text:
    the display is "Error5", not a number made of the digit. *)
Lemma digit_after_equals_Error_appends :
  let s := reducer sample_env
             (dispatch_all initialState six_divided_by_zero) Action.equals in
  reachable s /\
  display s = "Error" /\
  display (reducer sample_env s (Action.digit "5")) = "Error5" /\
  display (reducer sample_env s (Action.digit "5")) <> "5".
Proof.
  cbv zeta. split; [| split; [| split]].
  - apply reachable_step; [| exact I].
    apply dispatch_all_reachable; [apply reachable_init | apply any_action_all].
  - reflexivity.
  - reflexivity.
  - vm_compute. discriminate.
Qed.

Lemma digit_payload_fresh (d : string) :
  (if String.eqb d "0" then "0" else d) = d.
Proof.
  destruct (String.eqb_spec d "0") as [-> |]; reflexivity.
Qed.

(** C1, amended: on a display "Error", [digit d] starts a fresh number [d]
    and lowers the waiting flag when the second operand is awaited (the
    state [operator] leaves on a division by zero) and appends [d] to the
    error text otherwise (the state [equals] leaves on a division by zero);
    first operand, operator, memory and history stay as they are. *)
Theorem digit_on_Error_fresh_only_when_waiting :
  forall env s d,
    display s = "Error" ->
    (waitingForSecond s = true ->
     reducer env s (Action.digit d)
     = with_waitingForSecond (with_display s d) false) /\
    (waitingForSecond s = false ->
     reducer env s (Action.digit d) = with_display s ("Error" ++ d)).
Proof.
  intros env s d Hd. simpl. split; intros Hw; rewrite Hw.
  - rewrite digit_payload_fresh. reflexivity.
  - rewrite Hd. reflexivity.
Qed.

Lemma digit_on_Error_fresh_only_when_waiting_witness :
  let s := dispatch_all initialState
             (six_divided_by_zero ++ [(sample_env, Action.operator Add)]) in
  display s = "Error" /\
  reducer sample_env s (Action.digit "5")
  = with_waitingForSecond (with_display s "5") false.
Proof.
  cbv zeta. split.
  - reflexivity.
  - apply (digit_on_Error_fresh_only_when_waiting sample_env _ "5"); reflexivity.
Defined.

(** *** Decimal points in the display *)

Section Dots.

Lemma dots_append (a b : string) : dots (a ++ b) = (dots a + dots b)%nat.
Proof.
  unfold dots. induction a as [| c a IH]; simpl; [reflexivity |].
  rewrite IH. lia.
Qed.

Lemma dots_substring (s : string) :
  forall n m, (dots (substring n m s) <= dots s)%nat.
Proof.
  unfold dots. induction s as [| c s IH]; intros [| n] [| m]; simpl; try lia.
  - specialize (IH 0%nat m). lia.
  - specialize (IH n 0%nat). lia.
  - specialize (IH n (S m)). lia.
Qed.

Lemma dots_uint (u : uint) : dots (NilEmpty.string_of_uint u) = 0%nat.
Proof.
  unfold dots. induction u; simpl; auto.
Qed.

Lemma dots_digits (z : Z) : dots (JSString.digits z) = 0%nat.
Proof.
  unfold JSString.digits, NilZero.string_of_uint.
  destruct (N.to_uint (Z.to_N z)) eqn:E; try reflexivity;
    rewrite <- E; apply dots_uint.
Qed.

Lemma dots_zeros (n : nat) : dots (JSString.zeros n) = 0%nat.
Proof.
  unfold dots. induction n; simpl; auto.
Qed.

Lemma dots_substring_free (s : string) (n m : nat) :
  dots s = 0%nat -> dots (substring n m s) = 0%nat.
Proof.
  intros H. pose proof (dots_substring s n m). lia.
Qed.

Lemma dots_exponent_suffix (e : Z) : dots (exponent_suffix e) = 0%nat.
Proof.
  unfold exponent_suffix. rewrite !dots_append, dots_digits.
  destruct (e <? 0); reflexivity.
Qed.

Lemma dots_sign (neg : bool) : dots (if neg then "-" else "") = 0%nat.
Proof.
  destruct neg; reflexivity.
Qed.

Lemma dots_mantissa (f : Z) (ds : string) :
  dots ds = 0%nat -> (dots (mantissa f ds) <= 1)%nat.
Proof.
  intros H. unfold mantissa. destruct (f =? 0); [lia |].
  rewrite !dots_append, !dots_substring_free by exact H.
  change (dots ".") with 1%nat. lia.
Qed.

Lemma dots_layout (s n k : Z) : (dots (layout s n k) <= 1)%nat.
Proof.
  unfold layout.
  repeat match goal with
         | |- context [if ?c then _ else _] => destruct c
         end;
    rewrite ?dots_append, ?dots_exponent_suffix, ?dots_zeros,
      ?dots_substring_free, ?dots_digits by apply dots_digits;
    try change (dots ".") with 1%nat; try change (dots "0.") with 1%nat; lia.
Qed.

Lemma dots_Number_toString (x : number) : (dots (Number_toString x) <= 1)%nat.
Proof.
  destruct x as [sx | sx | | sx m e]; unfold Number_toString.
  - compute. lia.
  - destruct sx; compute; lia.
  - compute. lia.
  - destruct (shortest m e) as [[s n] k].
    rewrite dots_append, dots_sign. apply dots_layout.
Qed.

Lemma dots_toExponential (x : number) (f : Z) :
  (dots (toExponential x f) <= 1)%nat.
Proof.
  destruct x as [sx | sx | | sx m e]; unfold toExponential.
  - rewrite dots_append. change (dots "e+0") with 0%nat.
    pose proof (dots_mantissa f _ (dots_zeros (Z.to_nat (f + 1)))). lia.
  - apply dots_Number_toString.
  - apply dots_Number_toString.
  - destruct (fraction m e) as [num den].
    destruct (scale10 num den (f - floor_log10 num den)) as [yn yd].
    match goal with
    | |- context [if ?c then _ else _] => destruct c
    end;
      rewrite !dots_append, dots_sign, dots_exponent_suffix;
      match goal with
      | |- context [mantissa f (JSString.digits ?n)] =>
          pose proof (dots_mantissa f _ (dots_digits n))
      end; lia.
Qed.

Lemma dots_formatResult (x : number) : (dots (formatResult x) <= 1)%nat.
Proof.
  unfold formatResult.
  destruct (negb (Number_isFinite x)); [compute; lia |].
  match goal with
  | |- context [if ?c then _ else _] => destruct c
  end; [apply dots_toExponential | apply dots_Number_toString].
Qed.

Lemma dots_slice (s : string) (from : Z) (to : option Z) :
  (dots (JSString.slice s from to) <= dots s)%nat.
Proof.
  unfold JSString.slice. apply dots_substring.
Qed.

Lemma includes_false_dots (s : string) :
  JSString.includes s "." = false -> dots s = 0%nat.
Proof.
  unfold dots. induction s as [| c s IH]; simpl; [reflexivity |].
  destruct (Ascii.eqb c "."); simpl; [discriminate | exact IH].
Qed.

(** One step keeps the display at one decimal point at most. *)
Lemma dots_reducer (env : Env) (s : State) (a : Action.t) :
  dot_safe a ->
  (dots (display s) <= 1)%nat ->
  (dots (display (reducer env s a)) <= 1)%nat.
Proof.
  intros Ha Hs.
  destruct a; simpl in Ha; simpl;
    repeat match goal with
           | |- context [if ?c then _ else _] => destruct c eqn:?
           | |- context [match ?o with Some _ => _ | None => _ end] =>
               destruct o eqn:?
           end; simpl;
    rewrite ?dots_append, ?Ha;
    try match goal with
        | H : JSString.includes _ _ = false |- _ =>
            rewrite (includes_false_dots _ H)
        end;
    try apply dots_formatResult;
    try (compute; lia);
    try (pose proof (dots_slice (display s) 0 (Some (-1)));
         pose proof (dots_slice (display s) 1 None); simpl; lia);
    unfold dots in *; simpl; lia.
Qed.

(** One step keeps every history result at one decimal point at most. *)
Lemma dots_history_reducer (env : Env) (s : State) (a : Action.t) :
  Forall (fun h => (dots (result h) <= 1)%nat) (history s) ->
  Forall (fun h => (dots (result h) <= 1)%nat) (history (reducer env s a)).
Proof.
  intros Hs.
  assert (Push : forall e x,
             Forall (fun h => (dots (result h) <= 1)%nat)
               (pushHistory env (history s) e (formatResult x) default_limit)).
  { intros e x. rewrite pushHistory_firstn. apply Forall_firstn_keep.
    constructor; [apply dots_formatResult | exact Hs]. }
  destruct a; simpl;
    repeat match goal with
           | |- context [if ?c then _ else _] => destruct c eqn:?
           | |- context [match ?o with Some _ => _ | None => _ end] =>
               destruct o eqn:?
           end; simpl; auto.
Qed.

End Dots.

(** C2, as stated, fails: after 6 / 0 = 5 the display is "Error5", which
    is neither a numeric literal nor "Error". *)
Lemma display_not_always_numeric_or_Error :
  let s := dispatch_all initialState
             (six_divided_by_zero
              ++ [(sample_env, Action.equals); (sample_env, Action.digit "5")]) in
  reachable s /\
  display s = "Error5" /\
  is_numeric_literal (display s) = false /\
  display s <> "Error".
Proof.
  cbv zeta. split; [| split; [| split]].
  - apply dispatch_all_reachable; [apply reachable_init | apply any_action_all].
  - reflexivity.
  - reflexivity.
  - vm_compute. discriminate.
Qed.

(** A [setDisplay] payload is shown as it comes, so the bound on decimal
    points needs the payloads the adapter sends. *)
Example setDisplay_shows_any_payload :
  reachable (reducer sample_env initialState (Action.setDisplay "1.2.3")) /\
  dots (display (reducer sample_env initialState (Action.setDisplay "1.2.3"))) = 2%nat.
Proof.
  split; [| reflexivity].
  apply reachable_step; [apply reachable_init | exact I].
Qed.

(** C2, amended: in every state reached from the initial state by actions
    whose [digit] payload has no decimal point and whose [setDisplay]
    payload has at most one, the display has at most one decimal point, and
    so has every history result (what the adapter sends with
    [setDisplay]). *)
Theorem display_has_at_most_one_decimal_point :
  forall s,
    reachable_by dot_safe s ->
    (dots (display s) <= 1)%nat /\
    Forall (fun h => (dots (result h) <= 1)%nat) (history s).
Proof.
  intros s H. induction H as [| env s a H [IHd IHh] Ha].
  - split; [compute; lia | constructor].
  - split; [apply dots_reducer | apply dots_history_reducer]; assumption.
Qed.

Lemma display_has_at_most_one_decimal_point_witness :
  (dots (display (reducer sample_env
                    (reducer sample_env initialState (Action.digit "1"))
                    Action.dot)) <= 1)%nat.
Proof.
  apply (display_has_at_most_one_decimal_point
           (reducer sample_env
              (reducer sample_env initialState (Action.digit "1")) Action.dot)).
  apply reachable_step; [apply reachable_step; [apply reachable_init |] |].
  - reflexivity.
  - exact I.
Defined.

(** ** Further properties of the reducer *)

(** *** Slicing *)

Lemma substring_whole (s : string) : substring 0 (String.length s) s = s.
Proof.
  induction s as [| c s IH]; simpl; [reflexivity | rewrite IH; reflexivity].
Qed.

Lemma substring_drop_last (s : string) :
  substring 0 (String.length s - 1) s = drop_last s.
Proof.
  induction s as [| c s IH]; [reflexivity |].
  destruct s as [| c' s']; [reflexivity |].
  replace (String.length (String c (String c' s')) - 1)%nat
    with (S (String.length (String c' s') - 1)) by (simpl; lia).
  change (substring 0 (S ?n) (String c ?r)) with (String c (substring 0 n r)).
  rewrite IH. reflexivity.
Qed.

Lemma slice_drop_last (s : string) :
  JSString.slice s 0 (Some (-1)) = drop_last s.
Proof.
  unfold JSString.slice, JSString.clamp_index.
  change (0 <? 0) with false. change (-1 <? 0) with true. cbv iota.
  rewrite <- substring_drop_last. f_equal; lia.
Qed.

Lemma slice_tail (c : ascii) (r : string) :
  JSString.slice (String c r) 1 None = r.
Proof.
  unfold JSString.slice, JSString.clamp_index.
  change (1 <? 0) with false. cbv iota.
  replace (Z.to_nat (Z.min 1 (Z.of_nat (String.length (String c r))))) with 1%nat
    by (simpl String.length; lia).
  replace (Z.to_nat _) with (String.length r) by (simpl String.length; lia).
  simpl. apply substring_whole.
Qed.

Lemma drop_last_append (s : string) (c : ascii) :
  drop_last (s ++ String c "") = s.
Proof.
  induction s as [| a s IH]; [reflexivity |].
  simpl. rewrite IH. destruct s; reflexivity.
Qed.

Lemma includes_append_same (s : string) (c : ascii) :
  JSString.includes (s ++ String c "") c = true.
Proof.
  induction s as [| a s IH]; simpl.
  - rewrite Ascii.eqb_refl. reflexivity.
  - rewrite IH. apply orb_true_r.
Qed.

Lemma eqb_append_char_false (s t : string) (c : ascii) :
  s <> t -> String.eqb (s ++ String c "") (t ++ String c "") = false.
Proof.
  intros H. apply String.eqb_neq. intros E. apply H.
  rewrite <- (drop_last_append s c), <- (drop_last_append t c), E. reflexivity.
Qed.

Lemma append_empty_r (s : string) : s ++ "" = s.
Proof.
  induction s as [| a s IH]; simpl; [reflexivity | rewrite IH; reflexivity].
Qed.

Lemma append_assoc_char (s t : string) (c : ascii) :
  (s ++ String c "") ++ t = s ++ String c t.
Proof.
  induction s as [| a s IH]; simpl; [reflexivity | rewrite IH; reflexivity].
Qed.

Lemma prefix_cons (a b : ascii) (p s : string) :
  prefix (String a p) (String b s) = Ascii.eqb a b && prefix p s.
Proof.
  cbn [prefix]. destruct (ascii_dec a b) as [-> | H].
  - rewrite Ascii.eqb_refl. reflexivity.
  - apply Ascii.eqb_neq in H. rewrite H. reflexivity.
Qed.

Lemma prefix_empty (s : string) : prefix "" s = true.
Proof.
  destruct s; reflexivity.
Qed.

(** *** Entering a number *)

(** X1: from a display "0" with no operand awaited, pressing digit buttons
    shows the digits pressed without their leading zeros ("0" while only
    zeros were pressed). *)
Theorem digits_show_as_typed :
  forall (l : list (Env * ascii)) (s : State),
    display s = "0" ->
    waitingForSecond s = false ->
    Forall (fun ec => JSString.is_digit (snd ec) = true) l ->
    display (dispatch_all s (press_digits l))
    = entered (string_of_list_ascii (map snd l)).
Proof.
  assert (Grow : forall (l : list (Env * ascii)) (s : State),
             first_is_digit (display s) = true ->
             display s <> "0" ->
             waitingForSecond s = false ->
             display (dispatch_all s (press_digits l))
             = display s ++ string_of_list_ascii (map snd l)).
  { induction l as [| [env c] l IH]; intros s Hd H0 Hw; simpl.
    - symmetry. apply append_empty_r.
    - rewrite Hw.
      destruct (String.eqb_spec (display s) "0") as [E | _]; [contradiction |].
      destruct (String.eqb_spec (display s) "-0") as [E | _];
        [rewrite E in Hd; discriminate |].
      rewrite IH; simpl.
      + apply append_assoc_char.
      + destruct (display s); [discriminate | exact Hd].
      + destruct (display s) as [| a [| b x]]; simpl in *; congruence.
      + exact Hw. }
  induction l as [| [env c] l IH]; intros s Hd Hw Hl; simpl.
  - exact Hd.
  - inversion Hl as [| ? ? Hc Hl']; subst. simpl in Hc.
    rewrite Hw, Hd. simpl.
    destruct (Ascii.eqb_spec c "0") as [-> | Hc0].
    + rewrite IH; auto.
    + rewrite Grow; simpl; auto.
      * unfold entered. simpl.
        destruct c as [[|] [|] [|] [|] [|] [|] [|] [|]];
          try reflexivity; try discriminate Hc; congruence.
      * intros E. apply Hc0. congruence.
Qed.

Lemma digits_show_as_typed_witness :
  display (dispatch_all initialState
             (press_digits [(sample_env, "0"%char); (sample_env, "5"%char);
                            (sample_env, "0"%char)])) = "50".
Proof.
  apply (digits_show_as_typed
           [(sample_env, "0"%char); (sample_env, "5"%char); (sample_env, "0"%char)]
           initialState); try reflexivity.
  repeat constructor.
Defined.

(** X2: a second decimal point does nothing: [dot] after [dot] leaves the
    state the first one made, whatever the state. *)
Theorem dot_twice_is_dot_once :
  forall env env' s,
    reducer env' (reducer env s Action.dot) Action.dot = reducer env s Action.dot.
Proof.
  intros env env' [d f o w m h]. simpl.
  destruct w; simpl; [reflexivity |].
  destruct (JSString.includes d ".") eqn:E; simpl.
  - rewrite E. reflexivity.
  - rewrite includes_append_same. reflexivity.
Qed.

(** X3: [toggleSign] twice gives the state back, unless the display is
    "-0" or starts with two minus signs. *)
Theorem toggleSign_twice_restores :
  forall env env' s,
    display s <> "-0" ->
    prefix "--" (display s) = false ->
    reducer env' (reducer env s Action.toggleSign) Action.toggleSign = s.
Proof.
  intros env env' [d f o w m h]. cbn [display]. intros H0 H2.
  cbn [reducer display]. unfold JSString.startsWith.
  destruct (String.eqb_spec d "0") as [-> | Hd]; [reflexivity |].
  destruct d as [| c r]; [reflexivity |].
  rewrite prefix_cons, prefix_empty, andb_true_r in *.
  destruct (Ascii.eqb_spec "-"%char c) as [<- | Hc].
  - rewrite slice_tail. cbn [with_display display].
    destruct (String.eqb_spec r "0") as [-> | Hr]; [congruence |].
    destruct r as [| c' r']; [reflexivity |].
    rewrite prefix_cons, prefix_empty, andb_true_r in *.
    cbn [andb] in H2. rewrite H2. reflexivity.
  - cbn [with_display display String.append].
    change (String.eqb (String "-" (String c r)) "0") with false. cbv iota.
    rewrite prefix_cons, prefix_empty, Ascii.eqb_refl. cbn [andb].
    rewrite slice_tail. reflexivity.
Qed.

Lemma toggleSign_twice_restores_witness :
  reducer sample_env
    (reducer sample_env (with_display initialState "12.5") Action.toggleSign)
    Action.toggleSign = with_display initialState "12.5".
Proof.
  apply (toggleSign_twice_restores sample_env sample_env
           (with_display initialState "12.5")).
  - vm_compute. discriminate.
  - reflexivity.
Defined.

(** X4: [delete] undoes the digit or the decimal point just entered: when
    no operand is awaited and the display is none of "", "-" and "-0",
    [digit d] with a one-unit payload followed by [delete] gives the state
    back, and so does [dot] followed by [delete] when the display had no
    decimal point. *)
Theorem delete_undoes_last_entry :
  forall env env' s,
    waitingForSecond s = false ->
    display s <> "" -> display s <> "-" -> display s <> "-0" ->
    (forall c,
        reducer env' (reducer env s (Action.digit (String c ""))) Action.delete = s) /\
    (JSString.includes (display s) "." = false ->
     reducer env' (reducer env s Action.dot) Action.delete = s).
Proof.
  intros env env' [d f o w m h]. simpl. intros -> He Hm Hz.
  assert (Back : forall c,
             (let next := JSString.slice (d ++ String c "") 0 (Some (-1)) in
              if String.eqb next "" || String.eqb next "-" || String.eqb next "-0"
              then "0" else next) = d \/ d = "0").
  { intros c. cbv zeta. rewrite slice_drop_last, drop_last_append.
    destruct (String.eqb_spec d "") as [E | _]; [contradiction |].
    destruct (String.eqb_spec d "-") as [E | _]; [contradiction |].
    destruct (String.eqb_spec d "-0") as [E | _]; [contradiction |].
    left. reflexivity. }
  split.
  - intros c.
    destruct (String.eqb_spec d "0") as [-> | Hd]; simpl; [reflexivity |].
    destruct (String.eqb_spec d "-0") as [E | _]; [contradiction |].
    simpl. destruct (Back c) as [B | B]; [| contradiction].
    cbv zeta in B. rewrite B. reflexivity.
  - intros Hi. rewrite Hi. simpl.
    destruct (Back "."%char) as [B | ->].
    + cbv zeta in B. rewrite B. reflexivity.
    + reflexivity.
Qed.

Lemma delete_undoes_last_entry_witness :
  reducer sample_env
    (reducer sample_env (with_display initialState "12") (Action.digit "7"))
    Action.delete = with_display initialState "12".
Proof.
  apply (delete_undoes_last_entry sample_env sample_env
           (with_display initialState "12"));
    try reflexivity; vm_compute; discriminate.
Defined.

(** *** Operators and equals *)

(** X5: the last operator pressed wins: [operator op2] right after
    [operator op1] leaves the state [operator op2] alone would have left,
    so nothing is computed or pushed a second time. *)
Theorem operator_pressed_last_wins :
  forall env env' s op1 op2,
    reducer env' (reducer env s (Action.operator op1)) (Action.operator op2)
    = reducer env s (Action.operator op2).
Proof.
  intros env env' [d f o w m h] op1 op2.
  destruct o as [op |], w, f as [first |]; reflexivity.
Qed.

(** X6: [equals] does nothing right after [equals], [clear] or
    [setDisplay]: a result is not computed again and no second history
    entry is pushed. *)
Theorem equals_needs_a_pending_operation :
  forall env env' s,
    reducer env' (reducer env s Action.equals) Action.equals
    = reducer env s Action.equals /\
    reducer env' (reducer env s Action.clear) Action.equals
    = reducer env s Action.clear /\
    forall v,
      reducer env' (reducer env s (Action.setDisplay v)) Action.equals
      = reducer env s (Action.setDisplay v).
Proof.
  intros env env' [d f o w m h]. repeat split.
  destruct o as [op |], w, f as [first |]; reflexivity.
Qed.



(** X8: in every reachable state the pending operator and the first
    operand are set together, and an awaited second operand implies both. *)
Theorem pending_operation_is_whole :
  forall s, reachable s ->
    (operator s <> None <-> firstOperand s <> None) /\
    (waitingForSecond s = true -> operator s <> None).
Proof.
  intros s H.
  assert (Inv : (operator s <> None -> firstOperand s <> None) /\
                (firstOperand s <> None -> operator s <> None) /\
                (waitingForSecond s = true -> operator s <> None)).
  { induction H as [| env s a H (IHo & IHf & IHw) _];
      [repeat split; simpl; congruence |].
    destruct s as [d [first |] [op |] [|] m h];
      cbn [operator firstOperand waitingForSecond] in *;
      destruct a; simpl;
      repeat match goal with
             | |- context [if ?c then _ else _] => destruct c eqn:?
             | |- context [match ?x with Some _ => _ | None => _ end] =>
                 destruct x eqn:?
             end; simpl in *; repeat split; intros; try congruence; auto;
      try (exfalso; apply IHo; congruence);
      try (exfalso; apply IHf; congruence);
      try (exfalso; apply IHw; congruence). }
  destruct Inv as (Io & If & Iw). repeat split; auto.
Qed.

Lemma pending_operation_is_whole_witness :
  (operator (reducer sample_env initialState (Action.operator Add)) <> None
   <-> firstOperand (reducer sample_env initialState (Action.operator Add)) <> None) /\
  (waitingForSecond (reducer sample_env initialState (Action.operator Add)) = true ->
   operator (reducer sample_env initialState (Action.operator Add)) <> None).
Proof.
  apply (pending_operation_is_whole
           (reducer sample_env initialState (Action.operator Add))).
  apply reachable_step; [apply reachable_init | exact I].
Defined.

(** *** History and memory *)


(** X10: only [memoryClear], [memoryAdd] and [memorySubtract] write the
    memory, and they write nothing else. *)
Theorem memory_written_only_by_memory_actions :
  forall env s a,
    (writes_memory a = false -> memory (reducer env s a) = memory s) /\
    (writes_memory a = true ->
     display (reducer env s a) = display s /\
     firstOperand (reducer env s a) = firstOperand s /\
     operator (reducer env s a) = operator s /\
     waitingForSecond (reducer env s a) = waitingForSecond s /\
     history (reducer env s a) = history s).
Proof.
  intros env [d f o w m h] a. split; intros Ha.
  - destruct a; try discriminate Ha; simpl;
      repeat match goal with
             | |- context [if ?c then _ else _] => destruct c
             | |- context [match ?x with Some _ => _ | None => _ end] => destruct x
             end; reflexivity.
  - destruct a; try discriminate Ha; repeat split.
Qed.

Lemma memory_written_only_by_memory_actions_witness :
  memory (reducer sample_env (with_memory initialState (Some (of_Z 7)))
            Action.percent) = Some (of_Z 7).
Proof.
  apply (proj1 (memory_written_only_by_memory_actions sample_env
                  (with_memory initialState (Some (of_Z 7))) Action.percent)).
  reflexivity.
Defined.



(** *** What the display can show *)

Lemma is_digit_not_minus (c : ascii) :
  JSString.is_digit c = true -> Ascii.eqb c "-" = false.
Proof.
  intros H. destruct (Ascii.eqb_spec c "-") as [-> | _]; [discriminate H | reflexivity].
Qed.

Lemma head_ok_spec (s : string) :
  head_ok s =
  match s with
  | EmptyString => false
  | String a r =>
      if Ascii.eqb a "-" then
        match r with
        | EmptyString => false
        | String b _ => negb (Ascii.eqb b "-")
        end
      else true
  end.
Proof.
  destruct s as [| a r]; [reflexivity |].
  destruct (Ascii.eqb_spec a "-") as [-> | Ha].
  - destruct r as [| b r']; [reflexivity |].
    destruct (Ascii.eqb_spec b "-") as [-> | Hb]; [reflexivity |].
    destruct b as [[|] [|] [|] [|] [|] [|] [|] [|]]; try reflexivity.
    exfalso. apply Hb. reflexivity.
  - destruct a as [[|] [|] [|] [|] [|] [|] [|] [|]]; try reflexivity.
    exfalso. apply Ha. reflexivity.
Qed.

Lemma numeric_head_spec (s : string) :
  numeric_head s =
  match s with
  | EmptyString => false
  | String a r => if Ascii.eqb a "-" then first_is_digit r else JSString.is_digit a
  end.
Proof.
  destruct s as [| a r]; [reflexivity |].
  destruct (Ascii.eqb_spec a "-") as [-> | Ha]; [reflexivity |].
  destruct a as [[|] [|] [|] [|] [|] [|] [|] [|]]; try reflexivity.
  exfalso. apply Ha. reflexivity.
Qed.

Lemma numeric_head_ok (s : string) :
  numeric_head s = true -> head_ok s = true /\ s <> "Error".
Proof.
  rewrite numeric_head_spec, head_ok_spec. destruct s as [| a r]; [discriminate |].
  destruct (Ascii.eqb_spec a "-") as [-> | Ha].
  - destruct r as [| b r']; [discriminate |]. simpl. intros Hb.
    rewrite (is_digit_not_minus b Hb). split; [reflexivity | discriminate].
  - intros Hd. split; [reflexivity |]. intros E. inversion E; subst. discriminate Hd.
Qed.

Lemma first_is_digit_numeric (s : string) :
  first_is_digit s = true -> numeric_head s = true.
Proof.
  rewrite numeric_head_spec. destruct s as [| a r]; [discriminate |]. simpl.
  intros H. rewrite (is_digit_not_minus a H). exact H.
Qed.

Lemma first_is_digit_digits (z : Z) : first_is_digit (JSString.digits z) = true.
Proof.
  unfold JSString.digits, NilZero.string_of_uint.
  destruct (N.to_uint (Z.to_N z)); reflexivity.
Qed.

Lemma first_is_digit_append (a b : string) :
  first_is_digit a = true -> first_is_digit (a ++ b) = true.
Proof.
  destruct a; [discriminate | auto].
Qed.

Lemma first_is_digit_substring (s : string) (n : nat) :
  first_is_digit s = true -> first_is_digit (substring 0 (S n) s) = true.
Proof.
  destruct s; auto.
Qed.

Lemma first_is_digit_layout (s n k : Z) : first_is_digit (layout s n k) = true.
Proof.
  pose proof (first_is_digit_digits s) as Hs.
  unfold layout.
  destruct ((-5 <=? n) && (n <=? 21)).
  - destruct (k <=? n); [apply first_is_digit_append; exact Hs |].
    destruct (Z.ltb_spec 0 n) as [Hn | _]; [| reflexivity].
    apply first_is_digit_append.
    destruct (Z.to_nat n) eqn:E; [lia |].
    apply first_is_digit_substring; exact Hs.
  - destruct (k =? 1); apply first_is_digit_append; [exact Hs |].
    apply first_is_digit_substring; exact Hs.
Qed.

Lemma signed_numeric_head (neg : bool) (s : string) :
  first_is_digit s = true ->
  numeric_head ((if neg then "-" else "") ++ s) = true.
Proof.
  intros H. destruct neg; [exact H | apply first_is_digit_numeric; exact H].
Qed.

Lemma Number_toString_shape (x : number) :
  numeric_head (Number_toString x) = true \/
  Number_toString x = "NaN" \/
  Number_toString x = "Infinity" \/ Number_toString x = "-Infinity".
Proof.
  destruct x as [sx | [|] | | sx m e]; unfold Number_toString; auto.
  destruct (shortest m e) as [[s n] k].
  left. apply signed_numeric_head, first_is_digit_layout.
Qed.

Lemma toExponential_shape (x : number) :
  numeric_head (toExponential x 6) = true \/
  toExponential x 6 = "NaN" \/
  toExponential x 6 = "Infinity" \/ toExponential x 6 = "-Infinity".
Proof.
  destruct x as [sx | sx | | sx m e];
    try apply (Number_toString_shape (S754_infinity sx));
    try apply (Number_toString_shape S754_nan).
  - left. reflexivity.
  - unfold toExponential.
    destruct (fraction m e) as [num den].
    destruct (scale10 num den (6 - floor_log10 num den)) as [yn yd].
    match goal with
    | |- context [if ?c then _ else _] => destruct c
    end; cbv zeta; left; apply signed_numeric_head;
      apply first_is_digit_append; unfold mantissa; simpl (6 =? 0);
      cbv iota; apply first_is_digit_append, first_is_digit_substring,
        first_is_digit_digits.
Qed.

Lemma formatResult_shape (x : number) :
  Number_isFinite x = true ->
  head_ok (formatResult x) = true /\ formatResult x <> "Error".
Proof.
  intros Hx. unfold formatResult. rewrite Hx. cbn [negb].
  assert (Shape : forall s : string,
             numeric_head s = true \/ s = "NaN" \/ s = "Infinity" \/ s = "-Infinity" ->
             head_ok s = true /\ s <> "Error").
  { intros s [H | [-> | [-> | ->]]];
      [apply numeric_head_ok; exact H | | |]; split; (reflexivity || discriminate). }
  match goal with
  | |- context [if ?c then _ else _] => destruct c
  end; apply Shape; [apply toExponential_shape | apply Number_toString_shape].
Qed.

(** X12: [formatResult] answers "Error" for the non-finite numbers
    (infinities and NaN) and for no finite number. *)
Theorem formatResult_Error_iff_not_finite :
  forall x, formatResult x = "Error" <-> Number_isFinite x = false.
Proof.
  intros x. split.
  - intros E. destruct (Number_isFinite x) eqn:F; [| reflexivity].
    destruct (formatResult_shape x F) as [_ Hne]. contradiction.
  - intros F. unfold formatResult. rewrite F. reflexivity.
Qed.

Lemma formatResult_Error_iff_not_finite_witness :
  formatResult (mul (of_decimal false 1 308) (of_Z 10)) = "Error".
Proof.
  apply (proj2 (formatResult_Error_iff_not_finite
                  (mul (of_decimal false 1 308) (of_Z 10)))).
  reflexivity.
Defined.

Lemma formatResult_head_ok (x : number) : head_ok (formatResult x) = true.
Proof.
  destruct (Number_isFinite x) eqn:F.
  - apply formatResult_shape; exact F.
  - unfold formatResult. rewrite F. reflexivity.
Qed.

Lemma head_ok_append_char (s : string) (c : ascii) :
  head_ok s = true -> head_ok (s ++ String c "") = true.
Proof.
  rewrite !head_ok_spec. destruct s as [| a [| b r]]; simpl;
    [discriminate | | auto].
  destruct (Ascii.eqb a "-"); [discriminate | auto].
Qed.

Lemma head_ok_drop_last (s : string) :
  head_ok s = true ->
  drop_last s = "" \/ drop_last s = "-" \/ head_ok (drop_last s) = true.
Proof.
  rewrite head_ok_spec. destruct s as [| a [| b [| c r]]];
    [discriminate | auto | |].
  - destruct (Ascii.eqb_spec a "-") as [-> | Ha]; auto.
    intros _. right; right.
    change (drop_last (String a (String b ""))) with (String a "").
    rewrite head_ok_spec. apply Ascii.eqb_neq in Ha. rewrite Ha. reflexivity.
  - intros H. right; right.
    change (drop_last (String a (String b (String c r))))
      with (String a (String b (drop_last (String c r)))).
    rewrite head_ok_spec. exact H.
Qed.

Lemma one_digit_head_ok (d : string) :
  one_digit d = true ->
  head_ok d = true /\ head_ok ("-" ++ d) = true.
Proof.
  destruct d as [| c [| ? ?]]; try discriminate. simpl one_digit. intros H.
  rewrite !head_ok_spec. simpl. rewrite (is_digit_not_minus c H).
  split; reflexivity.
Qed.

(** One step of a button keeps the display well-headed. *)
Lemma head_ok_reducer (env : Env) (s : State) (a : Action.t) :
  keypad_action a ->
  head_ok (display s) = true ->
  head_ok (display (reducer env s a)) = true.
Proof.
  intros Ha Hs. destruct s as [d f o w m h]. cbn [display] in Hs.
  destruct a; cbn [keypad_action] in Ha; simpl;
    try exact Hs; try reflexivity.
  - (* digit *)
    destruct (one_digit_head_ok payload Ha) as [H1 H2].
    destruct w; simpl.
    + rewrite digit_payload_fresh. exact H1.
    + destruct (String.eqb d "0"); [exact H1 |].
      destruct (String.eqb d "-0"); simpl; [exact H2 |].
      destruct payload as [| c [| ? ?]]; try discriminate Ha.
      apply head_ok_append_char; exact Hs.
  - (* dot *)
    destruct w; [reflexivity |].
    destruct (JSString.includes d "."); [exact Hs |].
    apply head_ok_append_char; exact Hs.
  - (* delete *)
    destruct w; [exact Hs |]. simpl.
    rewrite slice_drop_last.
    destruct (head_ok_drop_last d Hs) as [-> | [-> | H]]; try reflexivity.
    destruct (String.eqb (drop_last d) "" || String.eqb (drop_last d) "-"
              || String.eqb (drop_last d) "-0"); [reflexivity | exact H].
  - (* toggleSign *)
    destruct (String.eqb d "0"); [exact Hs |].
    try unfold JSString.startsWith. rewrite head_ok_spec in Hs.
    destruct d as [| c r]; [discriminate Hs |].
    rewrite prefix_cons, prefix_empty, andb_true_r.
    destruct (Ascii.eqb_spec "-"%char c) as [<- | Hc];
      cbn [with_display display].
    + rewrite slice_tail. simpl in Hs.
      destruct r as [| b r']; [discriminate Hs |].
      rewrite head_ok_spec.
      destruct (Ascii.eqb b "-"); [discriminate Hs | reflexivity].
    + rewrite head_ok_spec. cbn [String.append]. simpl (Ascii.eqb "-" "-").
      cbv iota. apply negb_true_iff, Ascii.eqb_neq. congruence.
  - (* percent *)
    destruct f; [destruct (is_some o && negb w) |]; apply formatResult_head_ok.
  - (* operator *)
    destruct (is_some o && w); [exact Hs |].
    destruct f; [destruct o |]; try exact Hs. apply formatResult_head_ok.
  - (* equals *)
    destruct o, w, f; try exact Hs. apply formatResult_head_ok.
  - (* memoryRecall *)
    destruct m; [apply formatResult_head_ok | exact Hs].
  - (* setDisplay *)
    exact Ha.
Qed.

Lemma history_step_formatted (env : Env) (s : State) (a : Action.t) :
  history (reducer env s a) = history s \/
  history (reducer env s a) = []%list \/
  exists e x,
    history (reducer env s a)
    = firstn 25 (new_item env e (formatResult x) :: history s).
Proof.
  destruct s as [d [first |] [op |] [|] [mem |] h]; destruct a; simpl;
    repeat match goal with
           | |- context [if ?c then _ else _] => destruct c
           end;
    rewrite ?pushHistory_firstn;
    first [ left; reflexivity
          | right; left; reflexivity
          | right; right; do 2 eexists; reflexivity ].
Qed.

Lemma head_ok_history_reducer (env : Env) (s : State) (a : Action.t) :
  Forall (fun h => head_ok (result h) = true) (history s) ->
  Forall (fun h => head_ok (result h) = true) (history (reducer env s a)).
Proof.
  intros Hs.
  destruct (history_step_formatted env s a) as [-> | [-> | (e & x & ->)]].
  - exact Hs.
  - constructor.
  - apply Forall_firstn_keep. constructor; [apply formatResult_head_ok | exact Hs].
Qed.

(** X13: in every state reached with the buttons (a [digit] carrying one
    decimal digit, a [setDisplay] carrying a text that is not empty, not a
    lone minus sign and not headed by two) the display is not empty, not a
    lone minus sign and not headed by two minus signs; the same holds of
    every history result, which is what [setDisplay] is sent with. *)
Theorem display_never_blank :
  forall s,
    reachable_by keypad_action s ->
    head_ok (display s) = true /\
    Forall (fun h => head_ok (result h) = true) (history s).
Proof.
  intros s H. induction H as [| env s a H [IHd IHh] Ha].
  - split; [reflexivity | constructor].
  - split; [apply head_ok_reducer | apply head_ok_history_reducer]; assumption.
Qed.

Lemma display_never_blank_witness :
  head_ok (display (reducer sample_env
                      (reducer sample_env initialState (Action.digit "7"))
                      Action.delete)) = true.
Proof.
  apply (display_never_blank
           (reducer sample_env
              (reducer sample_env initialState (Action.digit "7")) Action.delete)).
  apply reachable_step; [apply reachable_step; [apply reachable_init |] |].
  - reflexivity.
  - exact I.
Defined.

(** *** Memory buttons *)

(** X14: the memory buttons the adapter disables do nothing anyway: with
    an empty memory [memoryClear] and [memoryRecall] return the state
    unchanged; [memoryAdd] and [memorySubtract] always fill the memory and
    [memoryClear] always empties it. *)
Theorem disabled_memory_buttons_are_no_ops :
  forall env s,
    (hasMemory s = false ->
     reducer env s Action.memoryClear = s /\
     reducer env s Action.memoryRecall = s) /\
    hasMemory (reducer env s Action.memoryAdd) = true /\
    hasMemory (reducer env s Action.memorySubtract) = true /\
    hasMemory (reducer env s Action.memoryClear) = false.
Proof.
  intros env [d f o w [mem |] h]; repeat split; try discriminate.
Qed.

Lemma disabled_memory_buttons_are_no_ops_witness :
  reducer sample_env initialState Action.memoryRecall = initialState.
Proof.
  apply (proj1 (disabled_memory_buttons_are_no_ops sample_env initialState)).
  reflexivity.
Defined.

(** *** The keyboard *)

(** X15: a key dispatches at most one action, never [toggleSign], a memory
    or history action or [setDisplay]; it dispatches [digit] exactly when
    its name holds a decimal digit, with the whole name as payload; and the
    default action of the key is prevented exactly when [equals] is
    dispatched. *)
Theorem onKeyDown_dispatches :
  forall k,
    match fst (onKeyDown k) with
    | Some (Action.digit d) => d = k /\ test_digit k = true
    | Some Action.dot | Some (Action.operator _) | Some Action.equals
    | Some Action.delete | Some Action.clear | Some Action.percent
    | None => test_digit k = false
    | Some _ => False
    end /\
    (snd (onKeyDown k) = true <-> fst (onKeyDown k) = Some Action.equals).
Proof.
  intros k. unfold onKeyDown.
  destruct (test_digit k); [simpl; split; [auto | split; discriminate] |].
  destruct (String.eqb k "."), (String.eqb k "+"), (String.eqb k "-"),
    (String.eqb k "*"), (String.eqb k "/"), (String.eqb k "Enter"),
    (String.eqb k "="), (String.eqb k "Backspace"), (String.eqb k "Escape"),
    (String.eqb k "%"); simpl; split; auto; split; intros; congruence.
Qed.

Lemma test_digit_one (c : ascii) :
  test_digit (String c "") = JSString.is_digit c.
Proof.
  simpl. apply orb_false_r.
Qed.

(** Every action dispatched by a plain key is one the buttons dispatch
    too: a [digit] carries one decimal digit and no decimal point. *)
Lemma plain_key_action (k : string) (a : Action.t) :
  plain_key k ->
  fst (onKeyDown k) = Some a ->
  keypad_action a /\ dot_safe a.
Proof.
  intros Hk. unfold onKeyDown.
  destruct (test_digit k) eqn:T.
  - destruct Hk as [Hk | Hk]; [| congruence].
    destruct k as [| c [| ? ?]]; try discriminate Hk.
    rewrite test_digit_one in T. intros [= <-]. simpl. rewrite T.
    split; [reflexivity |].
    unfold dots. simpl.
    destruct (Ascii.eqb_spec c ".") as [-> | _]; [discriminate T | reflexivity].
  - destruct (String.eqb k "."), (String.eqb k "+"), (String.eqb k "-"),
      (String.eqb k "*"), (String.eqb k "/"), (String.eqb k "Enter"),
      (String.eqb k "="), (String.eqb k "Backspace"), (String.eqb k "Escape"),
      (String.eqb k "%"); simpl; intros [= <-]; split; exact I.
Qed.

(** X16: whatever is typed with plain keys (one code unit, or a name
    without a decimal digit) from the initial state, the display has at
    most one decimal point and is not empty, not a lone minus sign and not
    headed by two minus signs. *)
Theorem typing_plain_keys_keeps_display_sane :
  forall l : list (Env * string),
    Forall (fun ek => plain_key (snd ek)) l ->
    (dots (display (type_keys initialState l)) <= 1)%nat /\
    head_ok (display (type_keys initialState l)) = true.
Proof.
  intros l.
  assert (Gen : forall s,
             (dots (display s) <= 1)%nat -> head_ok (display s) = true ->
             Forall (fun ek => plain_key (snd ek)) l ->
             (dots (display (type_keys s l)) <= 1)%nat /\
             head_ok (display (type_keys s l)) = true).
  { induction l as [| [env k] l IH]; intros s Hd Hh Hl; [split; assumption |].
    inversion Hl as [| ? ? Hk Hl']; subst. simpl in Hk.
    unfold type_keys. cbn [fold_left fst snd]. apply IH; try exact Hl';
      unfold keydown; destruct (fst (onKeyDown k)) as [a |] eqn:E;
      try assumption;
      destruct (plain_key_action k a Hk E) as [Hp Hs].
    - apply dots_reducer; assumption.
    - apply head_ok_reducer; assumption. }
  apply Gen; [compute; lia | reflexivity].
Qed.

Lemma typing_plain_keys_keeps_display_sane_witness :
  (dots (display (type_keys initialState
                    [(sample_env, "1"); (sample_env, "."); (sample_env, ".");
                     (sample_env, "Backspace"); (sample_env, "Shift")])) <= 1)%nat /\
  head_ok (display (type_keys initialState
                      [(sample_env, "1"); (sample_env, "."); (sample_env, ".");
                       (sample_env, "Backspace"); (sample_env, "Shift")])) = true.
Proof.
  apply (typing_plain_keys_keeps_display_sane
           [(sample_env, "1"); (sample_env, "."); (sample_env, ".");
            (sample_env, "Backspace"); (sample_env, "Shift")]).
  repeat constructor; right; reflexivity.
Defined.

(** X17: a key whose name holds a decimal digit is taken for a digit
    whatever else the name holds: on a display "0", or when the second
    operand is awaited, the display becomes the key's name (F5 shows
    "F5"). *)
Theorem named_key_with_digit_is_shown :
  forall env s k,
    test_digit k = true ->
    (waitingForSecond s = true \/
     (waitingForSecond s = false /\ display s = "0")) ->
    display (keydown env s k) = k.
Proof.
  intros env s k T H. unfold keydown, onKeyDown. rewrite T. simpl.
  destruct H as [-> | [-> ->]]; simpl.
  - apply digit_payload_fresh.
  - reflexivity.
Qed.

Lemma named_key_with_digit_is_shown_witness :
  display (keydown sample_env initialState "F5") = "F5".
Proof.
  apply (named_key_with_digit_is_shown sample_env initialState "F5").
  - reflexivity.
  - right. split; reflexivity.
Defined.

(** *** Arithmetic *)

Lemma add_commutes (a b : number) : add a b = add b a.
Proof.
  destruct a as [[|] | [|] | | sa ma ea], b as [[|] | [|] | | sb mb eb];
    try reflexivity.
  unfold add, SFadd. rewrite (Z.min_comm ea eb). f_equal. apply Z.add_comm.
Qed.

Lemma mul_commutes (a b : number) : mul a b = mul b a.
Proof.
  destruct a as [[|] | [|] | | sa ma ea], b as [[|] | [|] | | sb mb eb];
    try reflexivity; try (destruct sa; reflexivity); try (destruct sb; reflexivity).
  unfold mul, SFmul.
  rewrite (xorb_comm sa sb), (Pos.mul_comm ma mb), (Z.add_comm ea eb).
  reflexivity.
Qed.

(** X18: [calculate] gives the same number for [a + b] and [b + a], and
    for [a * b] and [b * a], whatever the numbers (zeros, infinities and
    NaN included). *)
Theorem calculate_add_multiply_commute :
  forall a b,
    calculate a b Add = calculate b a Add /\
    calculate a b Multiply = calculate b a Multiply.
Proof.
  intros a b. split; [apply add_commutes | apply mul_commutes].
Qed.

(** *** Typing after a result *)

(** X19: once [equals] has computed, no operand is awaited, so a digit is
    appended to the result shown, unless that is "0" (replaced by the
    digit) or "-0". *)
Theorem digit_after_result_appends :
  forall env env' s first op d,
    firstOperand s = Some first ->
    operator s = Some op ->
    waitingForSecond s = false ->
    let shown := display (reducer env s Action.equals) in
    shown = formatResult (calculate first (parseDisplay (display s)) op) /\
    (shown <> "0" -> shown <> "-0" ->
     display (reducer env' (reducer env s Action.equals) (Action.digit d))
     = shown ++ d) /\
    (shown = "0" ->
     display (reducer env' (reducer env s Action.equals) (Action.digit d)) = d).
Proof.
  intros env env' [x f o w m h] first op d. cbn [firstOperand operator waitingForSecond].
  intros -> -> ->. cbv zeta. cbn [reducer operator waitingForSecond firstOperand display].
  split; [reflexivity | split].
  - intros H0 Hm.
    destruct (String.eqb_spec (formatResult (calculate first (parseDisplay x) op)) "0");
      [contradiction |].
    destruct (String.eqb_spec (formatResult (calculate first (parseDisplay x) op)) "-0");
      [contradiction |].
    reflexivity.
  - intros ->. reflexivity.
Qed.

Lemma digit_after_result_appends_witness :
  let s := dispatch_all initialState
             [(sample_env, Action.digit "5"); (sample_env, Action.operator Add);
              (sample_env, Action.digit "3")] in
  display (reducer sample_env (reducer sample_env s Action.equals)
             (Action.digit "5")) = "85".
Proof.
  cbv zeta.
  refine (proj1 (proj2 (digit_after_result_appends sample_env sample_env _
                          (of_Z 5) Add "5" _ _ _)) _ _);
    try reflexivity; vm_compute; discriminate.
Defined.
